(** * OEmbedNode and OEmbedPlugin

  A shallow embedding of the playground's oEmbed decorator node
  ([nodes/OEmbedNode.tsx]) and of the plugin that registers its insert
  command ([plugins/OEmbedPlugin]).

  JavaScript objects are finite maps from property names to values, DOM
  elements are a local name with an attribute map, and the code that runs
  inside an editor update is written in a small state monad that threads
  the host's key counter and the calls made to its block-insertion
  routine. *)

From stdpp Require Import gmap strings list fin_maps.
From Stdlib Require Import ZArith.

Set Warnings "-register-all".
Open Scope string_scope.

(** ** JavaScript values *)

Module JS.

(** Values as [JSON.parse] and [res.json()] produce them.  Numbers are the
    integral ones (widths, heights, the version tag); objects are maps
    from property names to values. *)
Inductive JSON : Type :=
| JNull
| JBool (b : bool)
| JNum (z : Z)
| JStr (s : string)
| JArr (l : list JSON)
| JObj (o : gmap string JSON).

(** Truthiness of a string: every string but the empty one. *)
Definition truthy_string (s : string) : bool :=
  match s with
  | EmptyString => false
  | String _ _ => true
  end.

(** Truthiness of a value, as [!x] and [if (x)] test it. *)
Definition truthy (j : JSON) : bool :=
  match j with
  | JNull => false
  | JBool b => b
  | JNum z => negb (z =? 0)%Z
  | JStr s => truthy_string s
  | JArr _ => true
  | JObj _ => true
  end.

(** [j.k] for a truthy value [j] and one of the property names this
    program reads ([type], [url], [width], [height], [html], [title]):
    an object answers with its own property, every other value with
    [undefined], which is [None] here. *)
Definition prop (j : JSON) (k : string) : option JSON :=
  match j with
  | JObj o => o !! k
  | _ => None
  end.

(** *** DOM elements *)

(** An element is its lower-case node name and its attributes. *)
Record HTMLElement : Type := mkElement {
  localName : string;
  attributes : gmap string string
}.

(** [document.createElement(tag)] *)
Definition createElement (tag : string) : HTMLElement :=
  {| localName := tag; attributes := ∅ |}.

(** [el.setAttribute(name, value)] *)
Definition setAttribute (name value : string) (el : HTMLElement)
  : HTMLElement :=
  {| localName := localName el;
     attributes := <[name := value]> (attributes el) |}.

(** [el.hasAttribute(name)] *)
Definition hasAttribute (name : string) (el : HTMLElement) : bool :=
  bool_decide (is_Some (attributes el !! name)).

(** [el.getAttribute(name)]; [null] is [None]. *)
Definition getAttribute (name : string) (el : HTMLElement) : option string :=
  attributes el !! name.

End JS.
Import JS.

(** ** The host editor *)

Module Lexical.

(** Node keys are handed out by the host from a counter. *)
Definition NodeKey : Type := N.

(** [ElementFormatType] is a union of string literals; at run time a
    format is a string. *)
Definition ElementFormatType : Type := string.

(** Fields of a [DecoratorBlockNode] together with the one field that
    [OEmbedNode] adds.  A format that is [undefined] or [null] is [None]. *)
Record OEmbedNode : Type := mkOEmbedNode {
  __url : string;
  __format : option ElementFormatType;
  __key : NodeKey
}.

(** What an update can observe and change: the next key the host will
    assign, and the nodes handed to its block-insertion routine so far,
    oldest first. *)
Record UpdateContext : Type := mkUpdateContext {
  nextKey : N;
  insertedBlocks : list OEmbedNode
}.

(** Code that runs inside an update. *)
Definition Update (A : Type) : Type := UpdateContext -> A * UpdateContext.

Definition ret {A : Type} (x : A) : Update A := fun c => (x, c).

Definition bind {A B : Type} (m : Update A) (k : A -> Update B) : Update B :=
  fun c => let '(x, c') := m c in k x c'.

Declare Scope update_scope.
Delimit Scope update_scope with update.
Notation "'let*' x ':=' m 'in' k" := (bind m (fun x => k))
  (at level 10, x name, m at level 100, k at level 200) : update_scope.

(** Modelled from the spec: the host's key management, which gives every
    node constructed without a key a fresh identity. *)
Definition generateKey : Update NodeKey :=
  fun c => (nextKey c,
            {| nextKey := N.succ (nextKey c);
               insertedBlocks := insertedBlocks c |}).

(** Modelled from the spec: the host's generic block-insertion routine
    [$insertBlockNode], recorded as the sequence of nodes it was asked to
    place. *)
Definition insertBlockNode (node : OEmbedNode) : Update unit :=
  fun c => (tt,
            {| nextKey := nextKey c;
               insertedBlocks := insertedBlocks c ++ [node] |}).

(** Modelled from the spec: [DecoratorBlockNode.setFormat], the host's
    "set format" capability; it changes the format and nothing else. *)
Definition setFormat (self : OEmbedNode) (format : option ElementFormatType)
  : OEmbedNode :=
  {| __url := __url self; __format := format; __key := __key self |}.

(** The format as the serialized form holds it: the alignment or [null]. *)
Definition format_to_json (f : option ElementFormatType) : JSON :=
  match f with
  | Some a => JStr a
  | None => JNull
  end.

(** *** Commands *)

(** Command tokens: the one this repository creates, and the host's. *)
Inductive LexicalCommand : Type :=
| INSERT_OEMBED_COMMAND
| HostCommand (id : N).

Definition COMMAND_PRIORITY_EDITOR : Z := 0.

(** A listener for a command with a string payload. *)
Definition CommandListener : Type := string -> Update bool.

(** The editor instance: the node types registered on it and the command
    listeners registered so far, newest first. *)
Record LexicalEditor : Type := mkEditor {
  _nodes : gset string;
  _commands : list (LexicalCommand * Z * CommandListener)
}.

(** Modelled from the spec: [editor.hasNodes], true when every listed
    node type is registered on the editor. *)
Definition hasNodes (editor : LexicalEditor) (types : list string) : bool :=
  forallb (fun t => bool_decide (t ∈ _nodes editor)) types.

(** Modelled from the spec: [editor.registerCommand], which adds the
    listener at the given priority. *)
Definition registerCommand (command : LexicalCommand)
    (listener : CommandListener) (priority : Z) (editor : LexicalEditor)
  : LexicalEditor :=
  {| _nodes := _nodes editor;
     _commands := (command, priority, listener) :: _commands editor |}.

End Lexical.
Import Lexical.
Open Scope update_scope.

(** ** nodes/OEmbedNode.tsx *)

(** The attribute that marks an exported container element. *)
Definition marker : string := "data-lexical-oembed-url".

(** [OEmbedNode.getType()] *)
Definition getType : string := "oembed".

(** [new OEmbedNode(url, format, key)]: the base constructor stores the
    format and the key, the host assigning a fresh key when none is given;
    then the url is stored. *)
Definition new_OEmbedNode (url : string) (format : option ElementFormatType)
    (key : option NodeKey) : Update OEmbedNode :=
  let* k := match key with
            | Some k => ret k
            | None => generateKey
            end in
  ret {| __url := url; __format := format; __key := k |}.

(** [$createOEmbedNode(url)] *)
Definition createOEmbedNode (url : string) : Update OEmbedNode :=
  new_OEmbedNode url None None.

(** [OEmbedNode.clone(node)] *)
Definition clone (node : OEmbedNode) : Update OEmbedNode :=
  new_OEmbedNode (__url node) (__format node) (Some (__key node)).

(** [getUrl()] *)
Definition getUrl (self : OEmbedNode) : string := __url self.

(** [getTextContent()]: the template literal
    [`https://twitter.com/i/web/status/${this.__url}`]. *)
Definition getTextContent (self : OEmbedNode) : string :=
  "https://twitter.com/i/web/status/" ++ __url self.

(** [isTopLevel()] *)
Definition isTopLevel (self : OEmbedNode) : bool := true.

(** *** JSON *)

Section Serialization.

(** Modelled from the spec: the fields, besides [format], that the
    decorator-block base class writes into every serialized node. *)
Variable baseFields : gmap string JSON.

(** Modelled from the spec: [DecoratorBlockNode.exportJSON], the base-class
    fields with the node's format (the alignment or [null]). *)
Definition super_exportJSON (self : OEmbedNode) : gmap string JSON :=
  <["format" := format_to_json (__format self)]> baseFields.

(** [exportJSON()]: the base object spread first, then [type], [url] and
    [version], a later property overriding an earlier one of its name. *)
Definition exportJSON (self : OEmbedNode) : gmap string JSON :=
  <["version" := JNum 1]>
    (<["url" := JStr (getUrl self)]>
       (<["type" := JStr "oembed"]> (super_exportJSON self))).

End Serialization.

(** [serializedNode.url] where the declared type holds: a string. *)
Definition serialized_url (serializedNode : gmap string JSON)
  : option string :=
  match serializedNode !! "url" with
  | Some (JStr u) => Some u
  | _ => None
  end.

(** [serializedNode.format] where the declared type holds: an alignment,
    or [null] or [undefined], both of which a node stores as no format. *)
Definition serialized_format (serializedNode : gmap string JSON)
  : option (option ElementFormatType) :=
  match serializedNode !! "format" with
  | Some (JStr a) => Some (Some a)
  | Some JNull => Some None
  | None => Some None
  | Some _ => None
  end.

(** [OEmbedNode.importJSON(serializedNode)].  The result is [None] only for
    an object outside the declared type [SerializedOEmbedNode] in its [url]
    or [format], for which this model says nothing; the [type] and
    [version] properties are never read. *)
Definition importJSON (serializedNode : gmap string JSON)
  : Update (option OEmbedNode) :=
  match serialized_url serializedNode, serialized_format serializedNode with
  | Some url, Some format =>
      let* node := createOEmbedNode url in
      ret (Some (setFormat node format))
  | _, _ => ret None
  end.

(** *** DOM *)

Record DOMConversionOutput : Type := mkDOMConversionOutput {
  node : OEmbedNode
}.

Record DOMConversion : Type := mkDOMConversion {
  conversion : HTMLElement -> Update (option DOMConversionOutput);
  priority : Z
}.

Record DOMExportOutput : Type := mkDOMExportOutput {
  element : HTMLElement
}.

(** [convertOEmbedElement(domNode)] *)
Definition convertOEmbedElement (domNode : HTMLElement)
  : Update (option DOMConversionOutput) :=
  match getAttribute marker domNode with
  | Some url =>
      if truthy_string url then
        let* node := createOEmbedNode url in
        ret (Some {| node := node |})
      else ret None
  | None => ret None
  end.

(** The function stored under [div] in the map that [importDOM] returns. *)
Definition importDOM_div (domNode : HTMLElement) : option DOMConversion :=
  if negb (hasAttribute marker domNode) then None
  else Some {| conversion := convertOEmbedElement; priority := 2 |}.

(** [OEmbedNode.importDOM()]: a map from node names to conversion
    selectors. *)
Definition importDOM : gmap string (HTMLElement -> option DOMConversion) :=
  {[ "div" := importDOM_div ]}.

(** Modelled from the spec: the host importer's use of the conversion map
    on one element: the selector registered for the element's node name
    decides whether a conversion applies, and the conversion it returns is
    run on the element. *)
Definition importFromMarkup (el : HTMLElement)
  : Update (option DOMConversionOutput) :=
  match importDOM !! localName el with
  | Some select =>
      match select el with
      | Some c => conversion c el
      | None => ret None
      end
  | None => ret None
  end.

(** [exportDOM()] *)
Definition exportDOM (self : OEmbedNode) : DOMExportOutput :=
  {| element := setAttribute marker (__url self) (createElement "div") |}.

(** *** Rendering *)

(** What the render dispatch can return: a string, or one of the elements
    the four render functions build.  A property the payload lacks reaches
    the element as [undefined], which is [None]. *)
Inductive ReactNode : Type :=
| RText (s : string)
| RImg (src width height : option JSON)
| RVideoDiv (innerHTML : option JSON)
| RAnchor (href : string) (children : option JSON)
| RRichDiv (__html : option JSON).

(** [renderPhoto(data)] *)
Definition renderPhoto (data : JSON) : ReactNode :=
  RImg (prop data "url") (prop data "width") (prop data "height").

(** [renderVideo(data)]: a detached [div] whose [innerHTML] is the
    payload's markup. *)
Definition renderVideo (data : JSON) : ReactNode :=
  RVideoDiv (prop data "html").

(** [renderLink(data, url)] *)
Definition renderLink (data : JSON) (url : string) : ReactNode :=
  RAnchor url (prop data "title").

(** [renderRich(data)] *)
Definition renderRich (data : JSON) : ReactNode :=
  RRichDiv (prop data "html").

(** [!url] for the optional [url] property. *)
Definition url_falsy (url : option string) : bool :=
  match url with
  | Some u => negb (truthy_string u)
  | None => true
  end.

(** [!oembedData] for the state that is [undefined] until a payload has
    arrived. *)
Definition data_falsy (oembedData : option JSON) : bool :=
  match oembedData with
  | Some d => negb (truthy d)
  | None => true
  end.

(** The callback [renderEmbed] of [OEmbedComponent], as a function of the
    values it closes over.  Past the first test both [url] and [oembedData]
    are present; the [switch] compares [oembedData.type] with each label by
    strict equality, so only a string can select a case. *)
Definition renderEmbed (url : option string) (isLoading : bool)
    (oembedData : option JSON) (loadingComponent : ReactNode) : ReactNode :=
  if url_falsy url || isLoading || data_falsy oembedData
  then loadingComponent
  else
    match url, oembedData with
    | Some u, Some data =>
        match prop data "type" with
        | Some (JStr t) =>
            if String.eqb t "photo" then renderPhoto data
            else if String.eqb t "video" then renderVideo data
            else if String.eqb t "link" then renderLink data u
            else if String.eqb t "rich" then renderRich data
            else loadingComponent
        | _ => loadingComponent
        end
    | _, _ => loadingComponent
    end.

(** ** plugins/OEmbedPlugin *)

(** The listener that the plugin registers for [INSERT_OEMBED_COMMAND]. *)
Definition insertOEmbedListener : CommandListener :=
  fun payload =>
    let* oembedNode := createOEmbedNode payload in
    let* _ := insertBlockNode oembedNode in
    ret true.

(** The effect of [OEmbedPlugin], run when the plugin mounts: either the
    thrown error's message, or the editor with the listener registered. *)
Definition OEmbedPlugin_effect (editor : LexicalEditor)
  : string + LexicalEditor :=
  if negb (hasNodes editor [getType])
  then inl "OEmbedPlugin: OEmbedNode not registered on editor"
  else inr (registerCommand INSERT_OEMBED_COMMAND insertOEmbedListener
              COMMAND_PRIORITY_EDITOR editor).

(** ** Vocabulary of the properties *)

(** The four payload shapes that the render dispatch knows. *)
Definition known_types : list string := ["photo"; "video"; "link"; "rich"].

(** The payload's type discriminator is unknown or missing: whatever
    string it holds is none of the four. *)
Definition type_unrecognized (data : JSON) : Prop :=
  ∀ t : string, prop data "type" = Some (JStr t) → t ∉ known_types.

(** Importing the exported container element of [n] in context [c]
    succeeds with a node of the same url. *)
Definition markup_roundtrip (n : OEmbedNode) (c : UpdateContext) : Prop :=
  ∃ out c', importFromMarkup (element (exportDOM n)) c = (Some out, c')
            ∧ getUrl (node out) = getUrl n.

(** The context in which an update starts on an empty document. *)
Definition emptyContext : UpdateContext :=
  {| nextKey := 0%N; insertedBlocks := [] |}.

(** *** Concrete inputs *)

Definition sampleUrl : string := "https://example.com/x".

Definition sampleNode : OEmbedNode :=
  {| __url := sampleUrl; __format := Some "center"; __key := 7%N |}.

(** A node whose url is the empty string, as [$createOEmbedNode("")]
    makes it in the empty context. *)
Definition emptyUrlNode : OEmbedNode :=
  {| __url := ""; __format := None; __key := 0%N |}.

(** The persisted object
    [{format: null, type: "oembed", url: sampleUrl, version: 1}]. *)
Definition serializedVersion1 : gmap string JSON :=
  <["version" := JNum 1]>
    (<["url" := JStr sampleUrl]>
       (<["type" := JStr "oembed"]> (<["format" := JNull]> ∅))).

(** The same object with [version: 2]. *)
Definition serializedVersion2 : gmap string JSON :=
  <["version" := JNum 2]> serializedVersion1.

(** [<div></div>] *)
Definition unmarkedDiv : HTMLElement := createElement "div".

(** [<div data-lexical-oembed-url=""></div>] *)
Definition emptyMarkerDiv : HTMLElement :=
  setAttribute marker "" (createElement "div").

(** A payload [{type: "audio", title: "t"}], whose type is none of the
    four. *)
Definition audioPayload : JSON :=
  JObj (<["type" := JStr "audio"]> (<["title" := JStr "t"]> ∅)).

(** An editor on which no node type is registered, and one on which
    [OEmbedNode] is. *)
Definition editorWithoutNode : LexicalEditor :=
  {| _nodes := ∅; _commands := [] |}.

Definition editorWithNode : LexicalEditor :=
  {| _nodes := {[ getType ]}; _commands := [] |}.

(** ** The decorator component of nodes/OEmbedNode.tsx *)

(** [config.theme.embedBlock]: the two class names, either of which a theme
    may leave out. *)
Record EmbedBlockTheme : Type := mkEmbedBlockTheme {
  theme_base : option string;
  theme_focus : option string
}.

(** The part of [EditorConfig] that [decorate] reads:
    [config.theme.embedBlock], which a theme may leave out. *)
Record EditorConfig : Type := mkEditorConfig {
  theme_embedBlock : option EmbedBlockTheme
}.

(** The [className] property of the component. *)
Record ClassName : Type := mkClassName {
  base : string;
  focus : string
}.

(** [OEmbedComponentProps], without the callbacks [onError] and [onLoad],
    which the component never reads.  An optional property that is not
    passed is [None]. *)
Record OEmbedComponentProps : Type := mkProps {
  props_className : ClassName;
  props_format : option ElementFormatType;
  props_loadingComponent : option ReactNode;
  props_nodeKey : NodeKey;
  props_url : option string
}.

(** [s || ''] for a class name that may be [undefined]. *)
Definition or_empty (s : option string) : string :=
  match s with
  | Some a => if truthy_string a then a else ""
  | None => ""
  end.

(** [decorate(editor, config)]: the properties handed to
    [OEmbedComponent]. *)
Definition decorate (self : OEmbedNode) (editor : LexicalEditor)
    (config : EditorConfig) : OEmbedComponentProps :=
  let embedBlockTheme :=
    match theme_embedBlock config with
    | Some t => t
    | None => {| theme_base := None; theme_focus := None |}
    end in
  let className :=
    {| base := or_empty (theme_base embedBlockTheme);
       focus := or_empty (theme_focus embedBlockTheme) |} in
  {| props_className := className;
     props_format := __format self;
     props_loadingComponent := Some (RText "Loading...");
     props_nodeKey := __key self;
     props_url := Some (__url self) |}.

(** The two [useState] cells of [OEmbedComponent]. *)
Record ComponentState : Type := mkComponentState {
  st_isLoading : bool;
  st_oembedData : option JSON
}.

(** The state of a component that has just mounted:
    [useState(false)] and [useState(undefined)]. *)
Definition initialState : ComponentState :=
  {| st_isLoading := false; st_oembedData := None |}.

(** The [BlockWithAlignableContents] element that the component returns,
    with the rendered embed as its child. *)
Record BlockWithAlignableContents : Type := mkBlock {
  block_className : ClassName;
  block_format : option ElementFormatType;
  block_nodeKey : NodeKey;
  block_children : ReactNode
}.

(** The loading component of the properties, ['Loading...'] by default. *)
Definition loadingComponentOf (props : OEmbedComponentProps) : ReactNode :=
  match props_loadingComponent props with
  | Some l => l
  | None => RText "Loading..."
  end.

(** What [OEmbedComponent] returns for given properties in a given state. *)
Definition OEmbedComponent (props : OEmbedComponentProps)
    (st : ComponentState) : BlockWithAlignableContents :=
  {| block_className := props_className props;
     block_format := props_format props;
     block_nodeKey := props_nodeKey props;
     block_children :=
       renderEmbed (props_url props) (st_isLoading st) (st_oembedData st)
         (loadingComponentOf props) |}.

(** *** The fetch effect *)

(** How a call that may throw ends: with a value, or with a thrown value,
    of which the [catch] block asks whether it is an [Error]. *)
Inductive Outcome (A : Type) : Type :=
| Returned (a : A)
| Threw (isError : bool).
Arguments Returned {A} a.
Arguments Threw {A} isError.

(** What the effect does to the outside: a [console.error], a [fetch]. *)
Inductive Event : Type :=
| ConsoleError
| Fetch (request : string).

(** The [catch] block: an [Error] is logged, any other value is dropped. *)
Definition catchLog (isError : bool) : list Event :=
  if isError then [ConsoleError] else [].

Section FetchEffect.

(** [findProvider] of the [oembed-parser] package: for a url, the
    [fetchEndpoint] of the provider it finds, or [null]. *)
Variable findProvider : string -> Outcome (option string).

(** The serialization of a value by [URLSearchParams.toString]. *)
Variable serialize : string -> string.

(** The address fetched:
    ['https://cors.deno.dev/' + endpoint + '?' + params.toString()] with
    [params] made from [{format: 'json', url}]. *)
Definition requestFor (endpoint url : string) : string :=
  "https://cors.deno.dev/" ++ endpoint ++ "?"
    ++ ("format=json&url=" ++ serialize url).

(** The effect of [OEmbedComponent] up to its first [await]: the state it
    leaves, what it did, and the request it waits for, if any. *)
Definition effectStart (url : option string) (st : ComponentState)
  : ComponentState * list Event * option string :=
  match url with
  | Some u =>
      if negb (truthy_string u) then (st, [], None)
      else
        let st1 :=
          {| st_isLoading := true; st_oembedData := st_oembedData st |} in
        match findProvider u with
        | Returned (Some endpoint) =>
            (st1, [Fetch (requestFor endpoint u)],
             Some (requestFor endpoint u))
        | Returned None => (st1, [ConsoleError], None)
        | Threw isError => (st1, catchLog isError, None)
        end
  | None => (st, [], None)
  end.

(** The rest of the effect, from the outcome of [fetch] and [res.json()]:
    a body is stored and the loading flag is cleared; a throw reaches the
    [catch] block, past both state updates. *)
Definition effectResume (response : Outcome JSON) (st : ComponentState)
  : ComponentState * list Event :=
  match response with
  | Returned data =>
      ({| st_isLoading := false; st_oembedData := Some data |}, [])
  | Threw isError => (st, catchLog isError)
  end.

(** One run of the effect to its end, [response] being the outcome of the
    request when one is made. *)
Definition runEffect (url : option string) (response : Outcome JSON)
    (st : ComponentState) : ComponentState * list Event :=
  match effectStart url st with
  | (st1, log, Some _) =>
      let '(st2, log2) := effectResume response st1 in
      (st2, (log ++ log2)%list)
  | (st1, log, None) => (st1, log)
  end.

End FetchEffect.

(** The [fetch] events of a log. *)
Definition fetches (log : list Event) : list string :=
  omap (fun e => match e with
                 | Fetch r => Some r
                 | ConsoleError => None
                 end) log.

(** ** Repeated dispatch *)

(** The insert command dispatched once for each payload, in order, with
    the plugin's listener as its only listener. *)
Fixpoint dispatchAll (payloads : list string) : Update unit :=
  match payloads with
  | [] => ret tt
  | payload :: rest =>
      let* _ := insertOEmbedListener payload in
      dispatchAll rest
  end.

(** The nodes that [dispatchAll] hands over, the first one under key
    [k]. *)
Fixpoint nodesFrom (k : N) (payloads : list string) : list OEmbedNode :=
  match payloads with
  | [] => []
  | payload :: rest =>
      {| __url := payload; __format := None; __key := k |}
        :: nodesFrom (N.succ k) rest
  end.

(** The nodes handed over so far have pairwise different keys, all of
    them below the next key of the context. *)
Definition keysDistinct (c : UpdateContext) : Prop :=
  NoDup (map __key (insertedBlocks c))
  ∧ Forall (fun n => (__key n < nextKey c)%N) (insertedBlocks c).

(** *** More concrete inputs *)

(** A [div] that carries the marker and a class. *)
Definition styledMarkedDiv : HTMLElement :=
  setAttribute "class" "embed" (setAttribute marker sampleUrl
                                   (createElement "div")).

(** A [span] that carries the marker. *)
Definition markedSpan : HTMLElement :=
  setAttribute marker sampleUrl (createElement "span").

(** A persisted object of another node type and version that has a url,
    no format and a property of its own. *)
Definition foreignSerialized : gmap string JSON :=
  <["id" := JStr "42"]>
    (<["version" := JNum 3]>
       (<["url" := JStr sampleUrl]> (<["type" := JStr "tweet"]> ∅))).

Definition photoFields : gmap string JSON :=
  <["type" := JStr "photo"]>
    (<["url" := JStr "https://example.com/p.png"]>
       (<["width" := JNum 640]> (<["height" := JNum 480]> ∅))).

Definition linkFields : gmap string JSON :=
  <["type" := JStr "link"]>
    (<["title" := JStr "Example"]>
       (<["url" := JStr "https://elsewhere.example"]> ∅)).



(** A provider lookup that knows one site. *)
Definition sampleFindProvider (url : string) : Outcome (option string) :=
  if String.eqb url sampleUrl
  then Returned (Some "https://example.com/oembed")
  else Returned None.

Definition sampleConfig : EditorConfig :=
  {| theme_embedBlock :=
       Some {| theme_base := Some "embed-block"; theme_focus := None |} |}.

(** ** Running the constructors *)

Lemma createOEmbedNode_run (url : string) (c : UpdateContext) :
  createOEmbedNode url c =
    ({| __url := url; __format := None; __key := nextKey c |},
     {| nextKey := N.succ (nextKey c); insertedBlocks := insertedBlocks c |}).
Proof. reflexivity. Qed.

Lemma clone_keeps_identity (n : OEmbedNode) (c : UpdateContext) :
  clone n c = (n, c).
Proof. destruct n; reflexivity. Qed.

Lemma truthy_string_nonempty (s : string) :
  truthy_string s = true ↔ s ≠ "".
Proof. destruct s; simpl; split; congruence. Qed.

(** ** JSON export and import *)

Section SerializationProperties.

Variable baseFields : gmap string JSON.

Lemma serialized_url_exportJSON (n : OEmbedNode) :
  serialized_url (exportJSON baseFields n) = Some (getUrl n).
Proof.
  unfold serialized_url, exportJSON.
  rewrite lookup_insert_ne by done.
  by rewrite lookup_insert_eq.
Qed.

Lemma lookup_format_exportJSON (n : OEmbedNode) :
  exportJSON baseFields n !! "format" = Some (format_to_json (__format n)).
Proof.
  unfold exportJSON, super_exportJSON.
  do 3 (rewrite lookup_insert_ne by done).
  by rewrite lookup_insert_eq.
Qed.

Lemma serialized_format_exportJSON (n : OEmbedNode) :
  serialized_format (exportJSON baseFields n) = Some (__format n).
Proof.
  unfold serialized_format. rewrite lookup_format_exportJSON.
  by destruct (__format n).
Qed.

(** The export reads the url and the format of a node and nothing else. *)
Lemma exportJSON_ext (n n' : OEmbedNode) :
  __url n = __url n' → __format n = __format n' →
  exportJSON baseFields n = exportJSON baseFields n'.
Proof.
  unfold exportJSON, super_exportJSON, getUrl. by intros -> ->.
Qed.

(** Importing an export rebuilds the url and the format under the next
    key of the context. *)
Lemma importJSON_exportJSON (n : OEmbedNode) (c : UpdateContext) :
  importJSON (exportJSON baseFields n) c =
    (Some {| __url := __url n; __format := __format n; __key := nextKey c |},
     {| nextKey := N.succ (nextKey c); insertedBlocks := insertedBlocks c |}).
Proof.
  unfold importJSON.
  by rewrite serialized_url_exportJSON, serialized_format_exportJSON.
Qed.

(** C1: for every url [u] and format [f], exporting the node made by
    [create(u)] with format [f] applied, importing that JSON and exporting
    again gives the same JSON, every property included; the imported node
    differs from the first one in its key. *)
Theorem export_import_export_identical
    (u : string) (f : option ElementFormatType) (c : UpdateContext) :
  ∃ (n : OEmbedNode) (c1 : UpdateContext)
    (n' : OEmbedNode) (c2 : UpdateContext),
    createOEmbedNode u c = (n, c1)
    ∧ importJSON (exportJSON baseFields (setFormat n f)) c1 = (Some n', c2)
    ∧ exportJSON baseFields n' = exportJSON baseFields (setFormat n f)
    ∧ __key n' ≠ __key (setFormat n f).
Proof.
  eexists _, _, _, _. split; [apply createOEmbedNode_run |].
  split; [apply importJSON_exportJSON |].
  split; [by apply exportJSON_ext |].
  simpl. lia.
Qed.

(** C9: the export of a node holds [type] = "oembed", [version] = 1 and
    [url] = the node's url; it holds the node's format, it has every
    property of the base-class export, and away from [type], [url] and
    [version] it agrees with the base-class export. *)
Theorem exportJSON_shape (n : OEmbedNode) :
  exportJSON baseFields n !! "type" = Some (JStr "oembed")
  ∧ exportJSON baseFields n !! "version" = Some (JNum 1)
  ∧ exportJSON baseFields n !! "url" = Some (JStr (getUrl n))
  ∧ exportJSON baseFields n !! "format" = Some (format_to_json (__format n))
  ∧ dom (super_exportJSON baseFields n) ⊆ dom (exportJSON baseFields n)
  ∧ delete "version" (delete "url" (delete "type" (exportJSON baseFields n)))
    = delete "version"
        (delete "url" (delete "type" (super_exportJSON baseFields n))).
Proof.
  split_and!.
  - unfold exportJSON. by simplify_map_eq.
  - unfold exportJSON. by simplify_map_eq.
  - unfold exportJSON. by simplify_map_eq.
  - apply lookup_format_exportJSON.
  - unfold exportJSON. rewrite !dom_insert_L.
    do 3 apply union_subseteq_r'. done.
  - apply map_eq. intros k. unfold exportJSON.
    destruct (decide (k = "version")) as [-> | Hv];
      [by rewrite !lookup_delete_eq |].
    rewrite !(lookup_delete_ne _ "version") by done.
    destruct (decide (k = "url")) as [-> | Hu];
      [by rewrite !lookup_delete_eq |].
    rewrite !(lookup_delete_ne _ "url") by done.
    destruct (decide (k = "type")) as [-> | Ht];
      [by rewrite !lookup_delete_eq |].
    rewrite !(lookup_delete_ne _ "type") by done.
    by rewrite !lookup_insert_ne by done.
Qed.

End SerializationProperties.

(** C5, as the code has it: [importJSON] never reads the version.  For an
    object whose [url] is a string [u] and whose [format] is [f], the
    import builds the node of [create(u)] and then applies [f], and it does
    the same whatever value the [version] property holds and when the
    property is missing. *)
Theorem importJSON_ignores_version
    (s : gmap string JSON) (u : string) (f : option ElementFormatType)
    (v : JSON) (c : UpdateContext) :
  serialized_url s = Some u →
  serialized_format s = Some f →
  ∃ (n : OEmbedNode) (c' : UpdateContext),
    createOEmbedNode u c = (n, c')
    ∧ importJSON s c = (Some (setFormat n f), c')
    ∧ importJSON (<["version" := v]> s) c = (Some (setFormat n f), c')
    ∧ importJSON (delete "version" s) c = (Some (setFormat n f), c').
Proof.
  intros Hu Hf. eexists _, _. split; [apply createOEmbedNode_run |].
  unfold importJSON, serialized_url, serialized_format in *.
  rewrite !lookup_insert_ne by done.
  rewrite !lookup_delete_ne by done.
  destruct (s !! "url") as [[ | | | u' | | ] | ]; try discriminate.
  destruct (s !! "format") as [[ | | | a | | ] | ]; try discriminate;
    by simplify_eq.
Qed.

(** ** DOM export and import *)

Lemma getAttribute_exportDOM (n : OEmbedNode) :
  getAttribute marker (element (exportDOM n)) = Some (__url n).
Proof. unfold getAttribute; simpl. apply lookup_insert_eq. Qed.

Lemma hasAttribute_exportDOM (n : OEmbedNode) :
  hasAttribute marker (element (exportDOM n)) = true.
Proof.
  unfold hasAttribute. apply bool_decide_eq_true.
  exists (__url n). apply (getAttribute_exportDOM n).
Qed.

(** On a [div], the import is the conversion when the marker is present. *)
Lemma importFromMarkup_div (el : HTMLElement) (c : UpdateContext) :
  localName el = "div" →
  importFromMarkup el c =
    if hasAttribute marker el then convertOEmbedElement el c else (None, c).
Proof.
  intros Hdiv. unfold importFromMarkup, importDOM. rewrite Hdiv.
  rewrite lookup_singleton_eq. unfold importDOM_div.
  by destruct (hasAttribute marker el).
Qed.

Lemma importFromMarkup_exportDOM (n : OEmbedNode) (c : UpdateContext) :
  importFromMarkup (element (exportDOM n)) c =
    if truthy_string (__url n)
    then (Some {| node := {| __url := __url n; __format := None;
                             __key := nextKey c |} |},
          {| nextKey := N.succ (nextKey c);
             insertedBlocks := insertedBlocks c |})
    else (None, c).
Proof.
  rewrite importFromMarkup_div by reflexivity.
  rewrite hasAttribute_exportDOM. unfold convertOEmbedElement.
  rewrite getAttribute_exportDOM.
  by destruct (truthy_string (__url n)).
Qed.

(** C2, as the code has it: for every node whose url is not the empty
    string, importing the container element that [exportDOM] produced
    succeeds and yields a node with the same url. *)
Theorem markup_roundtrip_nonempty_url (n : OEmbedNode) (c : UpdateContext) :
  getUrl n ≠ "" → markup_roundtrip n c.
Proof.
  intros Hne. apply truthy_string_nonempty in Hne. unfold getUrl in Hne.
  unfold markup_roundtrip. rewrite importFromMarkup_exportDOM, Hne.
  by eexists _, _.
Qed.

(** C8: an element without the marker attribute is not recognized: the
    import returns [null] and constructs no node. *)
Theorem importFromMarkup_unmarked (el : HTMLElement) (c : UpdateContext) :
  hasAttribute marker el = false → importFromMarkup el c = (None, c).
Proof.
  intros Hno. unfold importFromMarkup, importDOM.
  destruct (decide (localName el = "div")) as [-> | Hother].
  - rewrite lookup_singleton_eq. unfold importDOM_div. by rewrite Hno.
  - by rewrite lookup_singleton_ne.
Qed.

(** C10: on a [div] whose marker attribute is present and empty, the
    attribute-presence check selects the conversion, and the conversion
    returns [null]; so the node made by [create("")] does not come back
    from the import of its own exported element. *)
Theorem empty_marker_selected_but_not_converted
    (el : HTMLElement) (c : UpdateContext) :
  localName el = "div" →
  getAttribute marker el = Some "" →
  importDOM !! localName el = Some importDOM_div
  ∧ importDOM_div el
    = Some {| conversion := convertOEmbedElement; priority := 2 |}
  ∧ convertOEmbedElement el c = (None, c)
  ∧ importFromMarkup el c = (None, c)
  ∧ ∃ (n : OEmbedNode) (c1 : UpdateContext),
      createOEmbedNode "" c = (n, c1)
      ∧ importFromMarkup (element (exportDOM n)) c1 = (None, c1).
Proof.
  intros Hdiv Hattr.
  assert (Hhas : hasAttribute marker el = true).
  { unfold hasAttribute. apply bool_decide_eq_true. by exists "". }
  assert (Hconv : convertOEmbedElement el c = (None, c)).
  { unfold convertOEmbedElement. by rewrite Hattr. }
  split_and!.
  - by rewrite Hdiv.
  - unfold importDOM_div. by rewrite Hhas.
  - exact Hconv.
  - rewrite importFromMarkup_div by done. by rewrite Hhas.
  - eexists _, _. split; [apply createOEmbedNode_run |].
    by rewrite importFromMarkup_exportDOM.
Qed.

(** ** Text content *)

(** C6, as the code has it: the text content is the fixed Twitter-status
    prefix followed by the node's url, so it depends on the node through
    its url alone: two nodes have the same text content exactly when they
    have the same url. *)
Theorem getTextContent_determined_by_url (n1 n2 : OEmbedNode) :
  getTextContent n1 = "https://twitter.com/i/web/status/" ++ getUrl n1
  ∧ (getTextContent n1 = getTextContent n2 ↔ getUrl n1 = getUrl n2).
Proof.
  unfold getTextContent, getUrl. split; [done |]. split.
  - intros H. by apply (inj (String.append _)) in H.
  - by intros ->.
Qed.

(** ** The render dispatch *)

Lemma known_types_eqb (t : string) :
  t ∉ known_types →
  String.eqb t "photo" = false ∧ String.eqb t "video" = false
  ∧ String.eqb t "link" = false ∧ String.eqb t "rich" = false.
Proof.
  intros Hnot. unfold known_types in Hnot.
  repeat split; apply String.eqb_neq; intros ->; apply Hnot;
    repeat (first [left; done | right]).
Qed.

(** C7: when the url is absent or empty, or the fetch is outstanding, or no
    payload has arrived, or the payload's type is none of [photo], [video],
    [link] and [rich] (a missing type included), the render dispatch
    returns the loading placeholder. *)
Theorem renderEmbed_placeholder
    (url : option string) (isLoading : bool) (oembedData : option JSON)
    (loadingComponent : ReactNode) :
  url_falsy url = true
  ∨ isLoading = true
  ∨ oembedData = None
  ∨ (∃ data : JSON, oembedData = Some data ∧ type_unrecognized data) →
  renderEmbed url isLoading oembedData loadingComponent = loadingComponent.
Proof.
  unfold renderEmbed.
  intros [Hurl | [Hload | [Hnone | (data & Hdata & Hty)]]].
  - by rewrite Hurl.
  - rewrite Hload. by rewrite orb_true_r.
  - rewrite Hnone. simpl. by rewrite !orb_true_r.
  - subst oembedData.
    destruct (url_falsy url || isLoading || data_falsy (Some data));
      [done |].
    destruct url as [u | ]; [| done].
    destruct (prop data "type") as [[ | | | t | | ] | ] eqn:Hprop;
      try done.
    destruct (known_types_eqb t (Hty t Hprop)) as (-> & -> & -> & ->).
    done.
Qed.

(** ** The insert command *)

(** Running the listener: one key is taken, one node is made from the
    payload and handed to the insertion routine, and the command is
    reported as handled. *)
Lemma insertOEmbedListener_run (payload : string) (c : UpdateContext) :
  insertOEmbedListener payload c =
    (true,
     {| nextKey := N.succ (nextKey c);
        insertedBlocks :=
          insertedBlocks c
          ++ [{| __url := payload; __format := None;
                 __key := nextKey c |}] |}).
Proof. reflexivity. Qed.

Lemma hasNodes_getType (editor : LexicalEditor) :
  hasNodes editor [getType] = bool_decide (getType ∈ _nodes editor).
Proof. unfold hasNodes. simpl. apply andb_true_r. Qed.

(** C4: on an editor without the node type, the plugin's effect throws its
    error and registers nothing; on an editor with the node type it does
    not throw, and it leaves the editor with the listener registered for
    the insert command at editor priority. *)
Theorem OEmbedPlugin_effect_setup (editor : LexicalEditor) :
  (getType ∉ _nodes editor →
   OEmbedPlugin_effect editor
   = inl "OEmbedPlugin: OEmbedNode not registered on editor")
  ∧ (getType ∈ _nodes editor →
     ∃ editor' : LexicalEditor,
       OEmbedPlugin_effect editor = inr editor'
       ∧ _nodes editor' = _nodes editor
       ∧ _commands editor'
         = (INSERT_OEMBED_COMMAND, COMMAND_PRIORITY_EDITOR,
            insertOEmbedListener) :: _commands editor).
Proof.
  unfold OEmbedPlugin_effect. rewrite hasNodes_getType. split; intros Hreg.
  - by rewrite bool_decide_eq_false_2.
  - rewrite bool_decide_eq_true_2 by done. simpl. by eexists.
Qed.

(** C3: the listener that the plugin registers for the insert command,
    run on a payload, constructs exactly one node, whose url is the
    payload, hands that node and no other to the block-insertion routine,
    and returns [true]. *)
Theorem registered_listener_inserts_one_node
    (editor editor' : LexicalEditor) (payload : string)
    (c : UpdateContext) :
  OEmbedPlugin_effect editor = inr editor' →
  ∃ (listener : CommandListener) (n : OEmbedNode) (c' : UpdateContext),
    head (_commands editor')
    = Some (INSERT_OEMBED_COMMAND, COMMAND_PRIORITY_EDITOR, listener)
    ∧ listener payload c = (true, c')
    ∧ getUrl n = payload
    ∧ insertedBlocks c' = (insertedBlocks c ++ [n])%list
    ∧ nextKey c' = N.succ (nextKey c)
    ∧ __key n = nextKey c.
Proof.
  unfold OEmbedPlugin_effect.
  destruct (negb (hasNodes editor [getType])); [discriminate |].
  intros [= <-].
  exists insertOEmbedListener,
    {| __url := payload; __format := None; __key := nextKey c |}.
  eexists. split; [reflexivity |].
  split; [apply insertOEmbedListener_run |]. by simpl.
Qed.

(** ** The properties at concrete inputs *)

Lemma markup_roundtrip_nonempty_url_witness :
  getUrl sampleNode ≠ "" ∧ markup_roundtrip sampleNode emptyContext.
Proof.
  split; [discriminate |].
  apply markup_roundtrip_nonempty_url. discriminate.
Defined.

(** The node with the empty url is exported with an empty marker, which
    the conversion does not accept. *)
Lemma markup_roundtrip_empty_url_fails :
  ¬ markup_roundtrip emptyUrlNode emptyContext.
Proof.
  intros (out & c' & Himport & _).
  rewrite importFromMarkup_exportDOM in Himport. discriminate Himport.
Qed.

Lemma importJSON_ignores_version_witness :
  serialized_url serializedVersion1 = Some sampleUrl
  ∧ serialized_format serializedVersion1 = Some None
  ∧ ∃ (n : OEmbedNode) (c' : UpdateContext),
      createOEmbedNode sampleUrl emptyContext = (n, c')
      ∧ importJSON serializedVersion1 emptyContext
        = (Some (setFormat n None), c')
      ∧ importJSON (<["version" := JStr "next"]> serializedVersion1)
          emptyContext
        = (Some (setFormat n None), c')
      ∧ importJSON (delete "version" serializedVersion1) emptyContext
        = (Some (setFormat n None), c').
Proof.
  split; [reflexivity |]. split; [reflexivity |].
  apply importJSON_ignores_version; reflexivity.
Defined.

(** A persisted object whose version is 2 is imported like any other. *)
Lemma importJSON_accepts_version_2 :
  serializedVersion2 !! "version" = Some (JNum 2)
  ∧ importJSON serializedVersion2 emptyContext
    = (Some {| __url := sampleUrl; __format := None; __key := 0%N |},
       {| nextKey := 1%N; insertedBlocks := [] |}).
Proof. split; reflexivity. Qed.

(** Two nodes with different urls have different text contents. *)
Lemma getTextContent_depends_on_url :
  getTextContent emptyUrlNode ≠ getTextContent sampleNode.
Proof. discriminate. Qed.

Lemma renderEmbed_placeholder_witness :
  (url_falsy (Some sampleUrl) = true
   ∨ false = true
   ∨ Some audioPayload = None
   ∨ (∃ data : JSON, Some audioPayload = Some data ∧ type_unrecognized data))
  ∧ renderEmbed (Some sampleUrl) false (Some audioPayload)
      (RText "Loading...")
    = RText "Loading...".
Proof.
  assert (Hcase :
    url_falsy (Some sampleUrl) = true
    ∨ false = true
    ∨ Some audioPayload = None
    ∨ (∃ data : JSON,
         Some audioPayload = Some data ∧ type_unrecognized data)).
  { do 3 right. exists audioPayload. split; [reflexivity |].
    intros t Ht. vm_compute in Ht. injection Ht as <-.
    unfold known_types. intros Hin.
    repeat (apply elem_of_cons in Hin as [Heq | Hin];
            [discriminate Heq |]).
    by apply elem_of_nil in Hin. }
  split; [exact Hcase |].
  exact (renderEmbed_placeholder _ _ _ _ Hcase).
Defined.

Lemma importFromMarkup_unmarked_witness :
  hasAttribute marker unmarkedDiv = false
  ∧ importFromMarkup unmarkedDiv emptyContext = (None, emptyContext).
Proof.
  split; [reflexivity |].
  apply importFromMarkup_unmarked. reflexivity.
Defined.

Lemma empty_marker_selected_but_not_converted_witness :
  localName emptyMarkerDiv = "div"
  ∧ getAttribute marker emptyMarkerDiv = Some ""
  ∧ importDOM !! localName emptyMarkerDiv = Some importDOM_div
  ∧ importDOM_div emptyMarkerDiv
    = Some {| conversion := convertOEmbedElement; priority := 2 |}
  ∧ convertOEmbedElement emptyMarkerDiv emptyContext = (None, emptyContext)
  ∧ importFromMarkup emptyMarkerDiv emptyContext = (None, emptyContext)
  ∧ ∃ (n : OEmbedNode) (c1 : UpdateContext),
      createOEmbedNode "" emptyContext = (n, c1)
      ∧ importFromMarkup (element (exportDOM n)) c1 = (None, c1).
Proof.
  split; [reflexivity |]. split; [reflexivity |].
  apply empty_marker_selected_but_not_converted; reflexivity.
Defined.

Lemma OEmbedPlugin_effect_setup_witness :
  ((getType ∉ _nodes editorWithoutNode)
   ∧ OEmbedPlugin_effect editorWithoutNode
     = inl "OEmbedPlugin: OEmbedNode not registered on editor")
  ∧ (getType ∈ _nodes editorWithNode
     ∧ ∃ editor' : LexicalEditor,
         OEmbedPlugin_effect editorWithNode = inr editor'
         ∧ _nodes editor' = _nodes editorWithNode
         ∧ _commands editor'
           = (INSERT_OEMBED_COMMAND, COMMAND_PRIORITY_EDITOR,
              insertOEmbedListener) :: _commands editorWithNode).
Proof.
  assert (Hout : getType ∉ _nodes editorWithoutNode)
    by apply not_elem_of_empty.
  assert (Hin : getType ∈ _nodes editorWithNode)
    by (unfold editorWithNode; simpl; by apply elem_of_singleton_2).
  split.
  - split; [exact Hout |].
    exact (proj1 (OEmbedPlugin_effect_setup editorWithoutNode) Hout).
  - split; [exact Hin |].
    exact (proj2 (OEmbedPlugin_effect_setup editorWithNode) Hin).
Defined.

Lemma registered_listener_inserts_one_node_witness :
  OEmbedPlugin_effect editorWithNode
  = inr (registerCommand INSERT_OEMBED_COMMAND insertOEmbedListener
           COMMAND_PRIORITY_EDITOR editorWithNode)
  ∧ ∃ (listener : CommandListener) (n : OEmbedNode) (c' : UpdateContext),
      head (_commands
              (registerCommand INSERT_OEMBED_COMMAND insertOEmbedListener
                 COMMAND_PRIORITY_EDITOR editorWithNode))
      = Some (INSERT_OEMBED_COMMAND, COMMAND_PRIORITY_EDITOR, listener)
      ∧ listener sampleUrl emptyContext = (true, c')
      ∧ getUrl n = sampleUrl
      ∧ insertedBlocks c' = (insertedBlocks emptyContext ++ [n])%list
      ∧ nextKey c' = N.succ (nextKey emptyContext)
      ∧ __key n = nextKey emptyContext.
Proof.
  assert (Heffect :
    OEmbedPlugin_effect editorWithNode
    = inr (registerCommand INSERT_OEMBED_COMMAND insertOEmbedListener
             COMMAND_PRIORITY_EDITOR editorWithNode))
    by (vm_compute; reflexivity).
  split; [exact Heffect |].
  exact (registered_listener_inserts_one_node _ _ sampleUrl emptyContext
           Heffect).
Defined.

Lemma getTextContent_determined_by_url_witness :
  getUrl sampleNode = getUrl (setFormat sampleNode None)
  ∧ getTextContent sampleNode = getTextContent (setFormat sampleNode None).
Proof.
  split; [reflexivity |].
  exact (proj2 (proj2 (getTextContent_determined_by_url
                         sampleNode (setFormat sampleNode None)))
           eq_refl).
Defined.

(** ** Further properties of the JSON form *)

Lemma format_to_json_inj (f g : option ElementFormatType) :
  format_to_json f = format_to_json g → f = g.
Proof. destruct f, g; simpl; congruence. Qed.

Section MoreSerializationProperties.

Variable baseFields : gmap string JSON.

(** X1: importing the export of any node, whatever its key and format,
    gives a node with the same url and the same format under the next key
    of the context; one key is taken and nothing is inserted. *)
Theorem importJSON_exportJSON_restores_node
    (n : OEmbedNode) (c : UpdateContext) :
  ∃ (n' : OEmbedNode) (c' : UpdateContext),
    importJSON (exportJSON baseFields n) c = (Some n', c')
    ∧ getUrl n' = getUrl n
    ∧ __format n' = __format n
    ∧ __key n' = nextKey c
    ∧ nextKey c' = N.succ (nextKey c)
    ∧ insertedBlocks c' = insertedBlocks c.
Proof.
  eexists _, _. split; [apply importJSON_exportJSON |]. by simpl.
Qed.


(** X3: the export of an imported node keeps of the imported object its
    url and its format only: its [type] and [version] are written anew and
    every other property of the object is dropped. *)
Theorem exportJSON_importJSON_keeps_url_and_format
    (s : gmap string JSON) (u : string) (f : option ElementFormatType)
    (c : UpdateContext) :
  serialized_url s = Some u →
  serialized_format s = Some f →
  ∃ (n : OEmbedNode) (c' : UpdateContext),
    importJSON s c = (Some n, c')
    ∧ exportJSON baseFields n
      = <["version" := JNum 1]>
          (<["url" := JStr u]>
             (<["type" := JStr "oembed"]>
                (<["format" := format_to_json f]> baseFields))).
Proof.
  intros Hu Hf. unfold importJSON. rewrite Hu, Hf.
  eexists _, _. split; [reflexivity |]. reflexivity.
Qed.

End MoreSerializationProperties.

(** X4: [importJSON] depends on the persisted object through its [url] and
    [format] properties alone: two objects that agree on these two are
    imported alike, whatever else they hold. *)
Theorem importJSON_reads_url_and_format_only
    (s1 s2 : gmap string JSON) (c : UpdateContext) :
  s1 !! "url" = s2 !! "url" →
  s1 !! "format" = s2 !! "format" →
  importJSON s1 c = importJSON s2 c.
Proof.
  intros Hu Hf. unfold importJSON, serialized_url, serialized_format.
  by rewrite Hu, Hf.
Qed.

(** ** Further properties of the DOM form *)

(** The conversion on an element that carries a non-empty marker. *)
Lemma convertOEmbedElement_marked
    (el : HTMLElement) (u : string) (c : UpdateContext) :
  getAttribute marker el = Some u → u ≠ "" →
  convertOEmbedElement el c =
    (Some {| node := {| __url := u; __format := None;
                        __key := nextKey c |} |},
     {| nextKey := N.succ (nextKey c);
        insertedBlocks := insertedBlocks c |}).
Proof.
  intros Hattr Hne. apply truthy_string_nonempty in Hne.
  unfold convertOEmbedElement. by rewrite Hattr, Hne.
Qed.

Lemma hasAttribute_getAttribute (name : string) (el : HTMLElement) :
  hasAttribute name el = true ↔ ∃ v : string, getAttribute name el = Some v.
Proof. unfold hasAttribute, getAttribute. apply bool_decide_eq_true. Qed.

(** X5: every [div] whose marker attribute holds a non-empty string is
    recognized, whatever other attributes it carries: the import makes one
    node with that string as its url, no format and the next key, and
    inserts nothing. *)
Theorem importFromMarkup_marked_div
    (el : HTMLElement) (u : string) (c : UpdateContext) :
  localName el = "div" →
  getAttribute marker el = Some u →
  u ≠ "" →
  importFromMarkup el c =
    (Some {| node := {| __url := u; __format := None;
                        __key := nextKey c |} |},
     {| nextKey := N.succ (nextKey c);
        insertedBlocks := insertedBlocks c |}).
Proof.
  intros Hdiv Hattr Hne. rewrite importFromMarkup_div by done.
  assert (hasAttribute marker el = true) as ->
    by (apply hasAttribute_getAttribute; eauto).
  by apply convertOEmbedElement_marked.
Qed.

(** X6: an element that is not a [div] is not recognized, even when it
    carries the marker attribute. *)
Theorem importFromMarkup_not_div (el : HTMLElement) (c : UpdateContext) :
  localName el ≠ "div" → importFromMarkup el c = (None, c).
Proof.
  intros Hother. unfold importFromMarkup, importDOM.
  by rewrite lookup_singleton_ne.
Qed.

(** X7: whenever the import yields a node, the element is a [div] whose
    marker attribute is the node's url, that url is not empty, the node
    has no format and the key the context offered, one key was taken and
    nothing was inserted; whenever it yields none, the context is
    untouched. *)
Theorem importFromMarkup_sound
    (el : HTMLElement) (c c' : UpdateContext)
    (result : option DOMConversionOutput) :
  importFromMarkup el c = (result, c') →
  match result with
  | Some out =>
      localName el = "div"
      ∧ getAttribute marker el = Some (getUrl (node out))
      ∧ getUrl (node out) ≠ ""
      ∧ __format (node out) = None
      ∧ __key (node out) = nextKey c
      ∧ nextKey c' = N.succ (nextKey c)
      ∧ insertedBlocks c' = insertedBlocks c
  | None => c' = c
  end.
Proof.
  destruct (decide (localName el = "div")) as [Hdiv | Hother].
  - rewrite importFromMarkup_div by done.
    destruct (hasAttribute marker el) eqn:Hhas.
    + apply hasAttribute_getAttribute in Hhas as [u Hattr].
      destruct (decide (u = "")) as [-> | Hne].
      * unfold convertOEmbedElement. rewrite Hattr. simpl.
        by intros [= <- <-].
      * rewrite (convertOEmbedElement_marked el u c) by done.
        by intros [= <- <-].
    + by intros [= <- <-].
  - unfold importFromMarkup, importDOM.
    rewrite lookup_singleton_ne by done. by intros [= <- <-].
Qed.

(** X8: the exported element is a [div] whose only attribute is the marker
    holding the url, so two nodes export the same element exactly when
    they have the same url. *)
Theorem exportDOM_eq_iff (n1 n2 : OEmbedNode) :
  localName (element (exportDOM n1)) = "div"
  ∧ attributes (element (exportDOM n1)) = {[ marker := getUrl n1 ]}
  ∧ (exportDOM n1 = exportDOM n2 ↔ getUrl n1 = getUrl n2).
Proof.
  split; [done |]. split; [done |]. split.
  - intros Heq.
    pose proof (getAttribute_exportDOM n1) as H1.
    rewrite Heq, getAttribute_exportDOM in H1. unfold getUrl. congruence.
  - unfold exportDOM, getUrl. by intros ->.
Qed.

(** X9: the DOM form does not carry the format: importing the exported
    element of a node with a non-empty url gives a node with the same url
    and no format, whatever format the node had, under a fresh key. *)
Theorem markup_roundtrip_drops_format (n : OEmbedNode) (c : UpdateContext) :
  getUrl n ≠ "" →
  importFromMarkup (element (exportDOM n)) c =
    (Some {| node := {| __url := getUrl n; __format := None;
                        __key := nextKey c |} |},
     {| nextKey := N.succ (nextKey c);
        insertedBlocks := insertedBlocks c |}).
Proof.
  intros Hne. apply truthy_string_nonempty in Hne. unfold getUrl in *.
  by rewrite importFromMarkup_exportDOM, Hne.
Qed.

(** X10: exporting, importing and exporting again gives the element of the
    first export, for every node with a non-empty url. *)
Theorem exportDOM_importFromMarkup_exportDOM
    (n : OEmbedNode) (c : UpdateContext) :
  getUrl n ≠ "" →
  ∃ (out : DOMConversionOutput) (c' : UpdateContext),
    importFromMarkup (element (exportDOM n)) c = (Some out, c')
    ∧ exportDOM (node out) = exportDOM n.
Proof.
  intros Hne. apply truthy_string_nonempty in Hne. unfold getUrl in Hne.
  rewrite importFromMarkup_exportDOM, Hne. eexists _, _.
  split; [reflexivity |]. reflexivity.
Qed.

(** ** Further properties of the render dispatch *)

(** Past its first test, the dispatch on an object payload. *)
Lemma renderEmbed_ready (u : string) (o : gmap string JSON)
    (loadingComponent : ReactNode) :
  u ≠ "" →
  renderEmbed (Some u) false (Some (JObj o)) loadingComponent =
    match o !! "type" with
    | Some (JStr t) =>
        if String.eqb t "photo" then renderPhoto (JObj o)
        else if String.eqb t "video" then renderVideo (JObj o)
        else if String.eqb t "link" then renderLink (JObj o) u
        else if String.eqb t "rich" then renderRich (JObj o)
        else loadingComponent
    | _ => loadingComponent
    end.
Proof.
  intros Hne. apply truthy_string_nonempty in Hne.
  unfold renderEmbed. simpl. by rewrite Hne.
Qed.

(** X11: a [photo] payload is rendered as an image whose source, width and
    height are the payload's [url], [width] and [height]; the url of the
    node does not appear in it. *)
Theorem renderEmbed_photo (u : string) (o : gmap string JSON)
    (loadingComponent : ReactNode) :
  u ≠ "" →
  o !! "type" = Some (JStr "photo") →
  renderEmbed (Some u) false (Some (JObj o)) loadingComponent
  = RImg (o !! "url") (o !! "width") (o !! "height").
Proof.
  intros Hne Hty. rewrite renderEmbed_ready by done. by rewrite Hty.
Qed.

(** X12: a [link] payload is rendered as an anchor that points at the url
    of the node, not at any url of the payload, and is labelled with the
    payload's [title]. *)
Theorem renderEmbed_link (u : string) (o : gmap string JSON)
    (loadingComponent : ReactNode) :
  u ≠ "" →
  o !! "type" = Some (JStr "link") →
  renderEmbed (Some u) false (Some (JObj o)) loadingComponent
  = RAnchor u (o !! "title").
Proof.
  intros Hne Hty. rewrite renderEmbed_ready by done. by rewrite Hty.
Qed.


(** X14: the dispatch leaves the placeholder only when the url is present
    and not empty, no fetch is outstanding, and the payload is an object
    whose [type] is the string [photo], [video], [link] or [rich]. *)
Theorem renderEmbed_not_placeholder
    (url : option string) (isLoading : bool) (oembedData : option JSON)
    (loadingComponent : ReactNode) :
  renderEmbed url isLoading oembedData loadingComponent ≠ loadingComponent →
  ∃ (u : string) (o : gmap string JSON) (t : string),
    url = Some u ∧ u ≠ ""
    ∧ isLoading = false
    ∧ oembedData = Some (JObj o)
    ∧ o !! "type" = Some (JStr t)
    ∧ t ∈ known_types.
Proof.
  unfold renderEmbed. intros Hshown.
  destruct url as [u | ]; [| done].
  destruct (truthy_string u) eqn:Hu; simpl in Hshown; rewrite Hu in Hshown;
    [| done].
  destruct isLoading; [done |].
  destruct oembedData as [data | ]; [| done].
  simpl in Hshown. destruct (truthy data); [| done]. simpl in Hshown.
  destruct data as [ | | | | | o]; try done. simpl in Hshown.
  destruct (o !! "type") as [[ | | | t | | ] | ] eqn:Hty; try done.
  exists u, o, t. split_and!; try done.
  - by apply truthy_string_nonempty.
  - unfold known_types.
    destruct (String.eqb t "photo") eqn:H1;
      [apply String.eqb_eq in H1 as ->; set_solver |].
    destruct (String.eqb t "video") eqn:H2;
      [apply String.eqb_eq in H2 as ->; set_solver |].
    destruct (String.eqb t "link") eqn:H3;
      [apply String.eqb_eq in H3 as ->; set_solver |].
    destruct (String.eqb t "rich") eqn:H4;
      [apply String.eqb_eq in H4 as ->; set_solver |].
    done.
Qed.

(** ** The fetch effect and the component *)

Section FetchEffectProperties.

Variable findProvider : string -> Outcome (option string).
Variable serialize : string -> string.

Lemma effectStart_falsy (url : option string) (st : ComponentState) :
  url_falsy url = true →
  effectStart findProvider serialize url st = (st, [], None).
Proof.
  unfold effectStart. destruct url as [u | ]; simpl; [| done].
  by intros ->.
Qed.

(** X15: with a url that is absent or empty the effect does nothing: the
    state is as it was, nothing is fetched and nothing is logged; and the
    component shows the loading component whatever that state holds. *)
Theorem runEffect_without_url
    (url : option string) (response : Outcome JSON) (st : ComponentState)
    (props : OEmbedComponentProps) :
  url_falsy url = true →
  props_url props = url →
  runEffect findProvider serialize url response st = (st, [])
  ∧ block_children (OEmbedComponent props st) = loadingComponentOf props.
Proof.
  intros Hfalsy Hprops. split.
  - unfold runEffect. by rewrite effectStart_falsy.
  - unfold OEmbedComponent. simpl. unfold renderEmbed.
    by rewrite Hprops, Hfalsy.
Qed.

(** X16: one run of the effect fetches at most once, and what it fetches
    is the endpoint that [findProvider] gave for a present, non-empty url,
    behind the proxy prefix and followed by the query. *)
Theorem runEffect_fetches
    (url : option string) (response : Outcome JSON) (st : ComponentState)
    (r : string) :
  (length (fetches (runEffect findProvider serialize url response st).2)
   ≤ 1)%nat
  ∧ (r ∈ fetches (runEffect findProvider serialize url response st).2
     ↔ ∃ u endpoint : string,
         url = Some u ∧ u ≠ ""
         ∧ findProvider u = Returned (Some endpoint)
         ∧ r = "https://cors.deno.dev/" ++ endpoint ++ "?format=json&url="
                 ++ serialize u).
Proof.
  unfold runEffect, effectStart.
  destruct url as [u | ]; simpl.
  2: { split; [lia |]. split; [by intros ?%elem_of_nil |].
       by intros (? & ? & ? & _). }
  destruct (truthy_string u) eqn:Hu; simpl.
  2: { split; [lia |]. split; [by intros ?%elem_of_nil |].
       intros (u' & e & [= <-] & Hne & _).
       apply truthy_string_nonempty in Hne. congruence. }
  apply truthy_string_nonempty in Hu.
  destruct (findProvider u) as [[endpoint | ] | isError] eqn:Hfind; simpl.
  - assert (Hlog : ∀ b : bool, fetches (catchLog b) = [])
      by (by intros []).
    destruct response as [data | isError]; simpl;
      rewrite ?Hlog; simpl; (split; [lia |]).
    all: rewrite list_elem_of_singleton; unfold requestFor; split.
    all: try (intros ->; exists u, endpoint; by rewrite Hfind).
    all: intros (u' & e' & [= <-] & _ & He & ->);
      rewrite Hfind in He; by injection He as <-.
  - split; [lia |]. split; [by intros ?%elem_of_nil |].
    intros (u' & e' & [= <-] & _ & He & _). congruence.
  - assert (fetches (catchLog isError) = []) as -> by (by destruct isError).
    simpl. split; [lia |]. split; [by intros ?%elem_of_nil |].
    intros (u' & e' & [= <-] & _ & He & _). congruence.
Qed.

(** X17: when the effect starts with a non-empty url and ends without a
    payload, because no provider was found, or the lookup threw, or the
    fetch or the parsing of its body threw, the loading flag stays set and
    the stored payload is the one from before; the component then shows the
    loading component. *)
Theorem runEffect_failure_keeps_loading
    (u : string) (response : Outcome JSON) (st : ComponentState)
    (loadingComponent : ReactNode) :
  u ≠ "" →
  (∀ endpoint : string, findProvider u ≠ Returned (Some endpoint))
  ∨ (∃ isError : bool, response = Threw isError) →
  (runEffect findProvider serialize (Some u) response st).1
  = {| st_isLoading := true; st_oembedData := st_oembedData st |}
  ∧ renderEmbed (Some u)
      (st_isLoading
         (runEffect findProvider serialize (Some u) response st).1)
      (st_oembedData
         (runEffect findProvider serialize (Some u) response st).1)
      loadingComponent
    = loadingComponent.
Proof.
  intros Hne Hfail. apply truthy_string_nonempty in Hne.
  assert (Hst : (runEffect findProvider serialize (Some u) response st).1
    = {| st_isLoading := true; st_oembedData := st_oembedData st |}).
  { unfold runEffect, effectStart. rewrite Hne. simpl.
    destruct (findProvider u) as [[endpoint | ] | isError] eqn:Hfind;
      simpl; try done.
    destruct Hfail as [Hnone | [isError ->]]; [| done].
    by destruct (Hnone endpoint). }
  split; [exact Hst |]. rewrite Hst. simpl.
  unfold renderEmbed. simpl. by rewrite Hne.
Qed.

(** X18: when a provider is found and the body arrives, the run makes
    exactly that one request and logs nothing, clears the loading flag and
    stores the body, whatever the state held before. *)
Theorem runEffect_success
    (u endpoint : string) (data : JSON) (st : ComponentState) :
  u ≠ "" →
  findProvider u = Returned (Some endpoint) →
  runEffect findProvider serialize (Some u) (Returned data) st
  = ({| st_isLoading := false; st_oembedData := Some data |},
     [Fetch (requestFor serialize endpoint u)]).
Proof.
  intros Hne Hfind. apply truthy_string_nonempty in Hne.
  unfold runEffect, effectStart. by rewrite Hne, Hfind.
Qed.

(** X19: a node with a non-empty url, decorated and mounted, for which a
    provider is found and a [link] payload arrives, ends up shown as an
    anchor to the node's own url, labelled with the payload's title, and
    with the node's format and key on the surrounding block. *)
Theorem decorate_link_end_to_end
    (n : OEmbedNode) (editor : LexicalEditor) (config : EditorConfig)
    (endpoint : string) (o : gmap string JSON) :
  getUrl n ≠ "" →
  findProvider (getUrl n) = Returned (Some endpoint) →
  o !! "type" = Some (JStr "link") →
  ∃ block : BlockWithAlignableContents,
    OEmbedComponent (decorate n editor config)
      (runEffect findProvider serialize
         (props_url (decorate n editor config)) (Returned (JObj o))
         initialState).1
    = block
    ∧ block_children block = RAnchor (getUrl n) (o !! "title")
    ∧ block_format block = __format n
    ∧ block_nodeKey block = __key n.
Proof.
  intros Hne Hfind Hty. eexists. split; [reflexivity |].
  split; [| done]. simpl.
  assert (Hrun :
    runEffect findProvider serialize (Some (__url n)) (Returned (JObj o))
      initialState
    = ({| st_isLoading := false; st_oembedData := Some (JObj o) |},
       [Fetch (requestFor serialize endpoint (__url n))])).
  { unfold getUrl in Hne, Hfind. apply truthy_string_nonempty in Hne.
    unfold runEffect, effectStart. by rewrite Hne, Hfind. }
  rewrite Hrun. simpl. rewrite renderEmbed_ready by done. by rewrite Hty.
Qed.

End FetchEffectProperties.

(** X20: a freshly mounted component shows ["Loading..."] for every node
    and every configuration, and a node whose url is empty shows it in
    every state, since the dispatch never gets past its first test. *)
Theorem decorate_initial_render
    (n : OEmbedNode) (editor : LexicalEditor) (config : EditorConfig)
    (st : ComponentState) :
  block_children (OEmbedComponent (decorate n editor config) initialState)
  = RText "Loading..."
  ∧ (getUrl n = "" →
     block_children (OEmbedComponent (decorate n editor config) st)
     = RText "Loading...").
Proof.
  split.
  - simpl. unfold renderEmbed. simpl. by rewrite orb_true_r.
  - unfold getUrl. intros Hempty. simpl. by rewrite Hempty.
Qed.

(** ** Repeated dispatch of the insert command *)

Lemma dispatchAll_run (payloads : list string) (c : UpdateContext) :
  dispatchAll payloads c =
    (tt,
     {| nextKey := nextKey c + N.of_nat (length payloads);
        insertedBlocks :=
          insertedBlocks c ++ nodesFrom (nextKey c) payloads |}).
Proof.
  revert c. induction payloads as [| payload rest IH]; intros c.
  - simpl. unfold ret. destruct c as [k blocks]; simpl.
    by rewrite N.add_0_r, app_nil_r.
  - change (dispatchAll (payload :: rest) c)
      with (dispatchAll rest (insertOEmbedListener payload c).2).
    rewrite insertOEmbedListener_run, IH. simpl. f_equal. f_equal.
    + lia.
    + by rewrite <- app_assoc.
Qed.


Lemma nodesFrom_keys (k : N) (payloads : list string) (n : OEmbedNode) :
  n ∈ nodesFrom k payloads →
  (k ≤ __key n < k + N.of_nat (length payloads))%N.
Proof.
  revert k. induction payloads as [| payload rest IH]; intros k; simpl.
  - by intros ?%elem_of_nil.
  - intros [-> | Hin]%elem_of_cons; simpl; [lia |].
    apply IH in Hin. lia.
Qed.

Lemma nodesFrom_NoDup (k : N) (payloads : list string) :
  NoDup (map __key (nodesFrom k payloads)).
Proof.
  revert k. induction payloads as [| payload rest IH]; intros k; simpl.
  - apply NoDup_nil_2.
  - apply NoDup_cons_2; [| apply IH].
    intros (n & Hk & Hin)%list_elem_of_fmap.
    apply nodesFrom_keys in Hin. simpl in Hk. lia.
Qed.


(** ** The text content and the url *)

(** X22: the text content of a node is never its url: it is longer than
    the url by the 33 characters of the Twitter-status prefix. *)
Theorem getTextContent_is_not_the_url (n : OEmbedNode) :
  String.length (getTextContent n) = 33 + String.length (getUrl n)
  ∧ getTextContent n ≠ getUrl n.
Proof.
  assert (Hlen :
    String.length (getTextContent n) = 33 + String.length (getUrl n)).
  { unfold getTextContent, getUrl. reflexivity. }
  split; [exact Hlen |]. intros Heq. rewrite Heq in Hlen. lia.
Qed.

(** ** The further properties at concrete inputs *)


Lemma exportJSON_importJSON_keeps_url_and_format_witness :
  serialized_url foreignSerialized = Some sampleUrl
  ∧ serialized_format foreignSerialized = Some None
  ∧ ∃ (n : OEmbedNode) (c' : UpdateContext),
      importJSON foreignSerialized emptyContext = (Some n, c')
      ∧ exportJSON ∅ n
        = <["version" := JNum 1]>
            (<["url" := JStr sampleUrl]>
               (<["type" := JStr "oembed"]>
                  (<["format" := format_to_json None]> ∅))).
Proof.
  split; [reflexivity |]. split; [reflexivity |].
  apply exportJSON_importJSON_keeps_url_and_format; reflexivity.
Defined.

Lemma importJSON_reads_url_and_format_only_witness :
  serializedVersion1 !! "url"
  = <["format" := JNull]> foreignSerialized !! "url"
  ∧ serializedVersion1 !! "format"
    = <["format" := JNull]> foreignSerialized !! "format"
  ∧ importJSON serializedVersion1 emptyContext
    = importJSON (<["format" := JNull]> foreignSerialized) emptyContext.
Proof.
  split; [reflexivity |]. split; [reflexivity |].
  apply importJSON_reads_url_and_format_only; reflexivity.
Defined.

Lemma importFromMarkup_marked_div_witness :
  localName styledMarkedDiv = "div"
  ∧ getAttribute marker styledMarkedDiv = Some sampleUrl
  ∧ sampleUrl ≠ ""
  ∧ importFromMarkup styledMarkedDiv emptyContext
    = (Some {| node := {| __url := sampleUrl; __format := None;
                          __key := nextKey emptyContext |} |},
       {| nextKey := N.succ (nextKey emptyContext);
          insertedBlocks := insertedBlocks emptyContext |}).
Proof.
  split; [reflexivity |]. split; [reflexivity |]. split; [discriminate |].
  apply importFromMarkup_marked_div; [reflexivity | reflexivity |].
  discriminate.
Defined.

Lemma importFromMarkup_not_div_witness :
  localName markedSpan ≠ "div"
  ∧ importFromMarkup markedSpan emptyContext = (None, emptyContext).
Proof.
  split; [discriminate |]. apply importFromMarkup_not_div. discriminate.
Defined.

Lemma importFromMarkup_sound_witness :
  importFromMarkup styledMarkedDiv emptyContext
  = (Some {| node := {| __url := sampleUrl; __format := None;
                        __key := 0%N |} |},
     {| nextKey := 1%N; insertedBlocks := [] |})
  ∧ localName styledMarkedDiv = "div"
  ∧ getAttribute marker styledMarkedDiv = Some sampleUrl
  ∧ sampleUrl ≠ ""
  ∧ (None : option ElementFormatType) = None
  ∧ 0%N = nextKey emptyContext
  ∧ 1%N = N.succ (nextKey emptyContext)
  ∧ ([] : list OEmbedNode) = insertedBlocks emptyContext.
Proof.
  assert (Hrun :
    importFromMarkup styledMarkedDiv emptyContext
    = (Some {| node := {| __url := sampleUrl; __format := None;
                          __key := 0%N |} |},
       {| nextKey := 1%N; insertedBlocks := [] |}))
    by reflexivity.
  split; [exact Hrun |].
  exact (importFromMarkup_sound styledMarkedDiv emptyContext _ _ Hrun).
Defined.

Lemma exportDOM_eq_iff_witness :
  getUrl sampleNode = getUrl (setFormat sampleNode None)
  ∧ exportDOM sampleNode = exportDOM (setFormat sampleNode None).
Proof.
  split; [reflexivity |].
  exact (proj2 (proj2 (proj2 (exportDOM_eq_iff sampleNode
                                (setFormat sampleNode None))))
           eq_refl).
Defined.

Lemma markup_roundtrip_drops_format_witness :
  getUrl sampleNode ≠ ""
  ∧ __format sampleNode = Some "center"
  ∧ importFromMarkup (element (exportDOM sampleNode)) emptyContext
    = (Some {| node := {| __url := getUrl sampleNode; __format := None;
                          __key := nextKey emptyContext |} |},
       {| nextKey := N.succ (nextKey emptyContext);
          insertedBlocks := insertedBlocks emptyContext |}).
Proof.
  split; [discriminate |]. split; [reflexivity |].
  apply markup_roundtrip_drops_format. discriminate.
Defined.

Lemma exportDOM_importFromMarkup_exportDOM_witness :
  getUrl sampleNode ≠ ""
  ∧ ∃ (out : DOMConversionOutput) (c' : UpdateContext),
      importFromMarkup (element (exportDOM sampleNode)) emptyContext
      = (Some out, c')
      ∧ exportDOM (node out) = exportDOM sampleNode.
Proof.
  split; [discriminate |].
  apply exportDOM_importFromMarkup_exportDOM. discriminate.
Defined.

Lemma renderEmbed_photo_witness :
  sampleUrl ≠ ""
  ∧ photoFields !! "type" = Some (JStr "photo")
  ∧ renderEmbed (Some sampleUrl) false (Some (JObj photoFields))
      (RText "Loading...")
    = RImg (photoFields !! "url") (photoFields !! "width")
        (photoFields !! "height").
Proof.
  split; [discriminate |]. split; [reflexivity |].
  apply renderEmbed_photo; [discriminate | reflexivity].
Defined.

Lemma renderEmbed_link_witness :
  sampleUrl ≠ ""
  ∧ linkFields !! "type" = Some (JStr "link")
  ∧ renderEmbed (Some sampleUrl) false (Some (JObj linkFields))
      (RText "Loading...")
    = RAnchor sampleUrl (linkFields !! "title").
Proof.
  split; [discriminate |]. split; [reflexivity |].
  apply renderEmbed_link; [discriminate | reflexivity].
Defined.


Lemma renderEmbed_not_placeholder_witness :
  renderEmbed (Some sampleUrl) false (Some (JObj photoFields))
    (RText "Loading...")
  ≠ RText "Loading..."
  ∧ ∃ (u : string) (o : gmap string JSON) (t : string),
      Some sampleUrl = Some u ∧ u ≠ ""
      ∧ false = false
      ∧ Some (JObj photoFields) = Some (JObj o)
      ∧ o !! "type" = Some (JStr t)
      ∧ t ∈ known_types.
Proof.
  assert (Hshown :
    renderEmbed (Some sampleUrl) false (Some (JObj photoFields))
      (RText "Loading...")
    ≠ RText "Loading...")
    by (intros Heq; vm_compute in Heq; discriminate Heq).
  split; [exact Hshown |].
  exact (renderEmbed_not_placeholder _ _ _ _ Hshown).
Defined.

Lemma runEffect_without_url_witness :
  url_falsy (Some "") = true
  ∧ props_url (decorate emptyUrlNode editorWithNode sampleConfig) = Some ""
  ∧ runEffect sampleFindProvider id (Some "") (Returned (JObj linkFields))
      initialState
    = (initialState, [])
  ∧ block_children
      (OEmbedComponent (decorate emptyUrlNode editorWithNode sampleConfig)
         initialState)
    = loadingComponentOf (decorate emptyUrlNode editorWithNode sampleConfig).
Proof.
  split; [reflexivity |]. split; [reflexivity |].
  apply runEffect_without_url; reflexivity.
Defined.

Lemma runEffect_fetches_witness :
  (∃ u endpoint : string,
     Some sampleUrl = Some u ∧ u ≠ ""
     ∧ sampleFindProvider u = Returned (Some endpoint)
     ∧ "https://cors.deno.dev/https://example.com/oembed?format=json&url=https://example.com/x"
       = "https://cors.deno.dev/" ++ endpoint ++ "?format=json&url=" ++ id u)
  ∧ "https://cors.deno.dev/https://example.com/oembed?format=json&url=https://example.com/x"
    ∈ fetches (runEffect sampleFindProvider id (Some sampleUrl)
                 (Threw true) initialState).2.
Proof.
  assert (Hprovider :
    ∃ u endpoint : string,
      Some sampleUrl = Some u ∧ u ≠ ""
      ∧ sampleFindProvider u = Returned (Some endpoint)
      ∧ "https://cors.deno.dev/https://example.com/oembed?format=json&url=https://example.com/x"
        = "https://cors.deno.dev/" ++ endpoint ++ "?format=json&url="
            ++ id u).
  { exists sampleUrl, "https://example.com/oembed".
    split; [reflexivity |]. split; [discriminate |].
    split; reflexivity. }
  split; [exact Hprovider |].
  exact (proj2 (proj2 (runEffect_fetches sampleFindProvider id
                         (Some sampleUrl) (Threw true) initialState _))
           Hprovider).
Defined.

Lemma runEffect_failure_keeps_loading_witness :
  sampleUrl ≠ ""
  ∧ ((∀ endpoint : string,
        sampleFindProvider sampleUrl ≠ Returned (Some endpoint))
     ∨ (∃ isError : bool, Threw (A := JSON) true = Threw isError))
  ∧ (runEffect sampleFindProvider id (Some sampleUrl) (Threw true)
       initialState).1
    = {| st_isLoading := true;
         st_oembedData := st_oembedData initialState |}
  ∧ renderEmbed (Some sampleUrl)
      (st_isLoading
         (runEffect sampleFindProvider id (Some sampleUrl) (Threw true)
            initialState).1)
      (st_oembedData
         (runEffect sampleFindProvider id (Some sampleUrl) (Threw true)
            initialState).1)
      (RText "Loading...")
    = RText "Loading...".
Proof.
  assert (Hne : sampleUrl ≠ "") by discriminate.
  assert (Hfail :
    (∀ endpoint : string,
       sampleFindProvider sampleUrl ≠ Returned (Some endpoint))
    ∨ (∃ isError : bool, Threw (A := JSON) true = Threw isError))
    by (right; exists true; reflexivity).
  split; [exact Hne |]. split; [exact Hfail |].
  exact (runEffect_failure_keeps_loading sampleFindProvider id sampleUrl
           (Threw true) initialState (RText "Loading...") Hne Hfail).
Defined.

Lemma runEffect_success_witness :
  sampleUrl ≠ ""
  ∧ sampleFindProvider sampleUrl = Returned (Some "https://example.com/oembed")
  ∧ runEffect sampleFindProvider id (Some sampleUrl)
      (Returned (JObj linkFields))
      {| st_isLoading := true; st_oembedData := Some (JObj photoFields) |}
    = ({| st_isLoading := false;
          st_oembedData := Some (JObj linkFields) |},
       [Fetch (requestFor id "https://example.com/oembed" sampleUrl)]).
Proof.
  split; [discriminate |]. split; [reflexivity |].
  apply runEffect_success; [discriminate | reflexivity].
Defined.

Lemma decorate_link_end_to_end_witness :
  getUrl sampleNode ≠ ""
  ∧ sampleFindProvider (getUrl sampleNode)
    = Returned (Some "https://example.com/oembed")
  ∧ linkFields !! "type" = Some (JStr "link")
  ∧ ∃ block : BlockWithAlignableContents,
      OEmbedComponent (decorate sampleNode editorWithNode sampleConfig)
        (runEffect sampleFindProvider id
           (props_url (decorate sampleNode editorWithNode sampleConfig))
           (Returned (JObj linkFields)) initialState).1
      = block
      ∧ block_children block
        = RAnchor (getUrl sampleNode) (linkFields !! "title")
      ∧ block_format block = __format sampleNode
      ∧ block_nodeKey block = __key sampleNode.
Proof.
  split; [discriminate |]. split; [reflexivity |]. split; [reflexivity |].
  apply (decorate_link_end_to_end sampleFindProvider id sampleNode
           editorWithNode sampleConfig "https://example.com/oembed");
    [discriminate | reflexivity | reflexivity].
Defined.

Lemma decorate_initial_render_witness :
  getUrl emptyUrlNode = ""
  ∧ block_children
      (OEmbedComponent (decorate emptyUrlNode editorWithNode sampleConfig)
         {| st_isLoading := false;
            st_oembedData := Some (JObj linkFields) |})
    = RText "Loading...".
Proof.
  split; [reflexivity |].
  exact (proj2 (decorate_initial_render emptyUrlNode editorWithNode
                  sampleConfig _) eq_refl).
Defined.

(** X23: if the nodes handed over so far have pairwise different keys
    below the next key, then so have the nodes handed over after any
    number of dispatches of the insert command: an inserted node never
    shares its key with another. *)
Theorem dispatchAll_keeps_keys_distinct
    (payloads : list string) (c : UpdateContext) :
  keysDistinct c → keysDistinct (dispatchAll payloads c).2.
Proof.
  intros [Hnodup Hbelow]. rewrite dispatchAll_run. unfold keysDistinct.
  simpl. split.
  - rewrite map_app. apply NoDup_app. split; [done |]. split.
    + intros k (n & -> & Hn)%list_elem_of_fmap
               (n' & Hk & Hn')%list_elem_of_fmap.
      rewrite Forall_forall in Hbelow. apply Hbelow in Hn.
      apply nodesFrom_keys in Hn'. lia.
    + apply nodesFrom_NoDup.
  - apply Forall_app. split.
    + eapply Forall_impl; [exact Hbelow |]. simpl. intros n Hn. lia.
    + apply Forall_forall. intros n Hn. apply nodesFrom_keys in Hn. lia.
Qed.

Lemma dispatchAll_keeps_keys_distinct_witness :
  keysDistinct emptyContext
  ∧ keysDistinct (dispatchAll [sampleUrl; ""; sampleUrl] emptyContext).2.
Proof.
  assert (Hempty : keysDistinct emptyContext).
  { split; [apply NoDup_nil_2 | apply Forall_nil_2]. }
  split; [exact Hempty |].
  exact (dispatchAll_keeps_keys_distinct _ _ Hempty).
Defined.
